(** * ESG Performance Dashboard: a shallow embedding of [dashboard.py]

    The script is one linear rendering pass: it reads two sidebar
    selections, builds five KPI cards and eight figures, and hands them to
    the page.  The embedding keeps that shape.  The script becomes a
    program [dashboard selected_year selected_scope] in a small monad whose
    effects are the two the script has: a call to the process-wide numpy
    random generator, and a raised exception.  The value it returns is a
    record [Page] with one field per card list or figure.

    Numbers: Python ints are [Z]; numpy float64 arrays are lists of exact
    rationals [Q] (rounding is not modelled, no statement below depends on
    it).

    Left out: the page configuration and CSS, the sidebar caption with the
    current date, and the colour, template, height and margin arguments of
    the figures.  None of them feeds a card or a series. *)

From Stdlib Require Import ZArith QArith String Ascii Bool List Lia Lqa.
From Stdlib Require Import DecimalString.
Import ListNotations.
Local Open Scope string_scope.
Local Open Scope Z_scope.

(* ===================================================================== *)
(** ** Python string formatting *)
(* ===================================================================== *)

Module Fmt.

(** [f"{n}"] for an int. *)
Definition str (n : Z) : string := NilZero.string_of_int (Z.to_int n).

(** Insert a comma before every complete group of three digits, reading
    the digits from the least significant one; [k] counts the digits
    already emitted in the current group. *)
Fixpoint group3 (k : nat) (rev_digits : list ascii) : list ascii :=
  match rev_digits with
  | [] => []
  | d :: rest =>
      match k with
      | 3%nat => ","%char :: d :: group3 1 rest
      | _ => d :: group3 (S k) rest
      end
  end.

(** [f"{n:,}"]: decimal digits with a thousands separator. *)
Definition comma (n : Z) : string :=
  let digits := list_ascii_of_string (str (Z.abs n)) in
  let body := string_of_list_ascii (rev (group3 0 (rev digits))) in
  if n <? 0 then "-" ++ body else body.

Definition digit_of (c : ascii) : option Z :=
  let n := Z.of_N (N_of_ascii c) in
  if (48 <=? n) && (n <=? 57) then Some (n - 48) else None.

(** Value of a string made of decimal digits only. *)
Fixpoint digits_value (acc : Z) (s : string) : option Z :=
  match s with
  | EmptyString => Some acc
  | String c rest =>
      match digit_of c with
      | Some d => digits_value (10 * acc + d) rest
      | None => None
      end
  end.

(** Reading of a card value such as ["88%"]: a non-empty run of digits
    followed by a percent sign. *)
Fixpoint percent_value (acc : Z) (seen : bool) (s : string) : option Z :=
  match s with
  | EmptyString => None
  | String c rest =>
      match digit_of c with
      | Some d => percent_value (10 * acc + d) true rest
      | None =>
          if (Ascii.eqb c "%"%char) && seen &&
             match rest with EmptyString => true | _ => false end
          then Some acc else None
      end
  end.

Definition parse_percent (s : string) : option Z := percent_value 0 false s.

End Fmt.

(* ===================================================================== *)
(** ** Exceptions *)
(* ===================================================================== *)

Inductive exn : Type :=
| ValueError (msg : string)
| KeyError (key : string).

(* ===================================================================== *)
(** ** pandas: timestamps, [date_range], [DataFrame] *)
(* ===================================================================== *)

Module Pd.

Record Timestamp : Type := mkTimestamp { year : Z; month : Z; day : Z }.

Definition is_leap (y : Z) : bool :=
  ((y mod 4 =? 0) && negb (y mod 100 =? 0)) || (y mod 400 =? 0).

Definition days_in_month (y m : Z) : Z :=
  if m =? 2 then (if is_leap y then 29 else 28)
  else if (m =? 4) || (m =? 6) || (m =? 9) || (m =? 11) then 30
  else 31.

(** The start of a range is given as text.  The form the script writes,
    [YYYY-MM-DD], is read field by field; any other text is refused. *)
Definition parse_date (s : string) : exn + Timestamp :=
  match s with
  | String y1 (String y2 (String y3 (String y4 (String "-"
    (String m1 (String m2 (String "-"
    (String d1 (String d2 EmptyString))))))))) =>
      match Fmt.digits_value 0 (String y1 (String y2 (String y3 (String y4 EmptyString)))),
            Fmt.digits_value 0 (String m1 (String m2 EmptyString)),
            Fmt.digits_value 0 (String d1 (String d2 EmptyString)) with
      | Some y, Some m, Some d =>
          if (1 <=? m) && (m <=? 12) && (1 <=? d) && (d <=? days_in_month y m)
          then inr (mkTimestamp y m d)
          else inl (ValueError ("day or month out of range: " ++ s))
      | _, _, _ => inl (ValueError ("Unknown datetime string format: " ++ s))
      end
  | _ => inl (ValueError ("Unknown datetime string format: " ++ s))
  end.

Definition month_end (y m : Z) : Timestamp := mkTimestamp y m (days_in_month y m).

(** [periods] consecutive month ends, the first one in month [m] of [y]. *)
Fixpoint month_ends (periods : nat) (y m : Z) : list Timestamp :=
  match periods with
  | O => []
  | S n =>
      month_end y m ::
      (if m =? 12 then month_ends n (y + 1) 1 else month_ends n y (m + 1))
  end.

(** [pd.date_range(start=..., periods=..., freq='M')]: the month ends on
    or after [start]. *)
Definition date_range (start : string) (periods : nat) : exn + list Timestamp :=
  match parse_date start with
  | inl e => inl e
  | inr t => inr (month_ends periods (year t) (month t))
  end.

Inductive column : Type :=
| Dates (v : list Timestamp)
| Floats (v : list Q).

Definition column_length (c : column) : nat :=
  match c with
  | Dates v => length v
  | Floats v => length v
  end.

Definition DataFrame := list (string * column).

Definition same_lengths (cols : list (string * column)) : bool :=
  match cols with
  | [] => true
  | (_, c) :: rest =>
      forallb (fun kc => Nat.eqb (column_length (snd kc)) (column_length c)) rest
  end.

(** [pd.DataFrame({...})] from a dict of arrays. *)
Definition mkDataFrame (cols : list (string * column)) : exn + DataFrame :=
  if same_lengths cols then inr cols
  else inl (ValueError "All arrays must be of the same length").

Fixpoint get (df : DataFrame) (key : string) : exn + column :=
  match df with
  | [] => inl (KeyError key)
  | (k, c) :: rest => if String.eqb k key then inr c else get rest key
  end.

End Pd.

(* ===================================================================== *)
(** ** numpy: [linspace], array addition, the random generator *)
(* ===================================================================== *)

Module Np.

Fixpoint set_last (v : list Q) (stop : Q) : list Q :=
  match v with
  | [] => []
  | [_] => [stop]
  | a :: rest => a :: set_last rest stop
  end.

(** [np.linspace(start, stop, num)] with the default [endpoint=True]:
    [arange(num) * step + start], the last entry overwritten by [stop]. *)
Definition linspace (start stop : Q) (num : nat) : list Q :=
  let div := (num - 1)%nat in
  let delta := (stop - start)%Q in
  let step := (delta / inject_Z (Z.of_nat div))%Q in
  let y := map (fun i => inject_Z (Z.of_nat i)) (seq 0 num) in
  let y := if (0 <? div)%nat then map (fun v => v * step)%Q y
           else map (fun v => v * delta)%Q y in
  let y := map (fun v => v + start)%Q y in
  if (1 <? num)%nat then set_last y stop else y.

Fixpoint zip_add (a b : list Q) : list Q :=
  match a, b with
  | u :: a', v :: b' => (u + v)%Q :: zip_add a' b'
  | _, _ => []
  end.

(** [a + b] on one-dimensional arrays: element by element when the
    shapes agree, a one-element array is broadcast, anything else is
    refused. *)
Definition add (a b : list Q) : exn + list Q :=
  if Nat.eqb (length a) (length b) then inr (zip_add a b)
  else match a, b with
       | [u], _ => inr (map (fun v => u + v)%Q b)
       | _, [v] => inr (map (fun u => u + v)%Q a)
       | _, _ => inl (ValueError "operands could not be broadcast together")
       end.

(** The process-wide generator behind [np.random].  Its state is hidden
    from the script; each primitive draw returns one number and the next
    state.  [next_gauss] is a standard normal draw, [next_double] a
    uniform draw from [0, 1). *)
Class BitGenerator : Type := {
  state : Type;
  next_gauss : state -> Q * state;
  next_double : state -> Q * state
}.

(** The calls of [np.random] a script can make. *)
Inductive call : Type :=
| normal (loc scale : Q) (size : nat)
| uniform (low high : Q) (size : nat).

Section Sampling.
Context {G : BitGenerator}.

(** [size] successive draws, each passed through [f]. *)
Fixpoint draws (next : state -> Q * state) (f : Q -> Q)
         (size : nat) (s : state) : list Q * state :=
  match size with
  | O => ([], s)
  | S n =>
      let (z, s1) := next s in
      let (rest, s2) := draws next f n s1 in
      (f z :: rest, s2)
  end.

(** [np.random.normal(loc, scale, size)] is [loc + scale * gauss];
    [np.random.uniform(low, high, size)] is
    [low + (high - low) * double]. *)
Definition sample (c : call) (s : state) : list Q * state :=
  match c with
  | normal loc scale size =>
      draws next_gauss (fun z => loc + scale * z)%Q size s
  | uniform low high size =>
      draws next_double (fun u => low + (high - low) * u)%Q size s
  end.
End Sampling.

End Np.

(* ===================================================================== *)
(** ** The script monad: random calls and exceptions *)
(* ===================================================================== *)

Inductive Script (A : Type) : Type :=
| Ret (a : A)
| Raise (e : exn)
| Random (c : Np.call) (k : list Q -> Script A).

Arguments Ret {A} a.
Arguments Raise {A} e.
Arguments Random {A} c k.

Fixpoint bind {A B : Type} (p : Script A) (f : A -> Script B) : Script B :=
  match p with
  | Ret a => f a
  | Raise e => Raise e
  | Random c k => Random c (fun v => bind (k v) f)
  end.

(** A library call that returns or raises. *)
Definition lift {A : Type} (r : exn + A) : Script A :=
  match r with
  | inl e => Raise e
  | inr a => Ret a
  end.

Definition np_random (c : Np.call) : Script (list Q) := Random c Ret.

Notation "x <- p ;; q" := (bind p (fun x => q))
  (at level 61, p at next level, right associativity).

Section Run.
Context {G : Np.BitGenerator}.

(** One execution of a script from generator state [s]: the result or
    the exception, and the generator state left behind. *)
Fixpoint run {A : Type} (p : Script A) (s : Np.state) : (exn + A) * Np.state :=
  match p with
  | Ret a => (inr a, s)
  | Raise e => (inl e, s)
  | Random c k => let (v, s') := Np.sample c s in run (k v) s'
  end.

(** The [np.random] calls made along that execution, in order. *)
Fixpoint calls {A : Type} (p : Script A) (s : Np.state) : list Np.call :=
  match p with
  | Ret _ => []
  | Raise _ => []
  | Random c k => let (v, s') := Np.sample c s in c :: calls (k v) s'
  end.
End Run.

(* ===================================================================== *)
(** ** What the page is made of *)
(* ===================================================================== *)

(** [st.metric(label, value, delta, delta_color=...)]: a KPI card. *)
Record Metric : Type := mkMetric {
  label : string;
  value : string;
  delta : string;
  delta_color : string
}.

Definition st_metric (label value delta : string) : Metric :=
  mkMetric label value delta "normal".

(** One entry of an axis: a category name, a date or a number. *)
Inductive datum : Type :=
| Category (s : string)
| Date (t : Pd.Timestamp)
| Int (n : Z)
| Float (q : Q).

Inductive chart : Type := Area | Bar | Box | Scatter.

(** The data of one cartesian trace.  [x] is [None] when the call passes
    no [x] argument. *)
Record Series : Type := mkSeries {
  kind : chart;
  name : string;
  x : option (list datum);
  y : list datum
}.

Record PieData : Type := mkPie {
  labels : list string;
  values : list Z;
  annotation : string
}.

Record SankeyData : Type := mkSankey {
  node_label : list string;
  link_source : list Z;
  link_target : list Z;
  link_value : list Z
}.

(** Everything one rendering pass puts on the page, in page order. *)
Record Page : Type := mkPage {
  header : string;
  cards : list Metric;
  ghg : Series;
  energy : Series;
  water : Series;
  dist : Series;
  minerals : PieData;
  gauge : Z;
  inc : list Series;
  sankey : SankeyData
}.

(* ===================================================================== *)
(** ** plotly *)
(* ===================================================================== *)

Module Px.

Definition data_of (c : Pd.column) : list datum :=
  match c with
  | Pd.Dates v => map Date v
  | Pd.Floats v => map Float v
  end.

(** [px.area(df, x=..., y=..., title=...)]: both columns are looked up
    in the frame. *)
Definition area (df : Pd.DataFrame) (xcol ycol title : string) : exn + Series :=
  match Pd.get df xcol, Pd.get df ycol with
  | inr cx, inr cy => inr (mkSeries Area title (Some (data_of cx)) (data_of cy))
  | inl e, _ => inl e
  | _, inl e => inl e
  end.

(** [px.bar(x=[...], y=[...], title=...)]: the two lists become columns
    of one frame, so they must be equally long. *)
Definition bar (xs ys : list datum) (title : string) : exn + Series :=
  if Nat.eqb (length xs) (length ys)
  then inr (mkSeries Bar title (Some xs) ys)
  else inl (ValueError "All arguments should have the same length").

(** [px.box(y=..., title=...)]: the sample alone, no [x]. *)
Definition box (ys : list Q) (title : string) : Series :=
  mkSeries Box title None (map Float ys).

End Px.

Module Go.

(** [go.Bar(x=..., y=..., name=...)] and [go.Scatter(...)] store what
    they are given. *)
Definition Bar (xs ys : list datum) (name : string) : Series :=
  mkSeries Bar name (Some xs) ys.

Definition Scatter (xs ys : list datum) (name : string) : Series :=
  mkSeries Scatter name (Some xs) ys.

End Go.

(* ===================================================================== *)
(** ** The script, statement by statement *)
(* ===================================================================== *)

(** *** 2. Sidebar controls: the options of the two select boxes *)

Definition fiscal_years : list Z := [2025; 2024; 2023].
Definition scopes : list string := ["Global"; "North America"; "EMEA"; "APAC"].

(** *** 3. Header and executive summary *)

Definition header_text (selected_scope : string) (selected_year : Z) : string :=
  "Overview of sustainability performance for **" ++ selected_scope ++
  "** in **FY " ++ Fmt.str selected_year ++ "**.".

Definition val_ghg (selected_year : Z) : Z :=
  if selected_year =? 2024 then 54000 else 49500.

Definition val_energy (selected_year : Z) : Z :=
  if selected_year =? 2024 then 120 else 115.

Definition k1 (selected_year : Z) : Metric :=
  st_metric "Total GHG Emissions" (Fmt.comma (val_ghg selected_year) ++ " tCO2e") "-8.5%".

Definition k2 (selected_year : Z) : Metric :=
  st_metric "Energy Intensity" (Fmt.str (val_energy selected_year) ++ " kWh/Unit") "-4.2%".

Definition k3 : Metric := mkMetric "Water Withdrawal" "1.5M m³" "+1.2%" "inverse".
Definition k4 : Metric := st_metric "ESRS Compliance" "88%" "+12%".
Definition k5 : Metric := st_metric "Supplier ESG Score" "74/100" "+2.5".

(** *** 4. Environmental performance *)

Definition dates (selected_year : Z) : exn + list Pd.Timestamp :=
  Pd.date_range (Fmt.str selected_year ++ "-01-01") 12.

Definition ramp : list Q := Np.linspace 6000 4500 12.

Definition trend_vals : Script (list Q) :=
  noise <- np_random (Np.normal 0 100 12) ;;
  lift (Np.add ramp noise).

Definition df_trend (dates : list Pd.Timestamp) (trend_vals : list Q) : exn + Pd.DataFrame :=
  Pd.mkDataFrame [("Date", Pd.Dates dates); ("Emissions", Pd.Floats trend_vals)].

Definition fig_ghg (df_trend : Pd.DataFrame) : exn + Series :=
  Px.area df_trend "Date" "Emissions" "<b>GHG Emissions Trend</b>".

Definition fig_energy : exn + Series :=
  Px.bar [Category "Facility A"; Category "Facility B"; Category "Facility C"]
         [Int 220; Int 180; Int 110]
         "<b>Energy Consumption by Facility</b>".

Definition fig_water : exn + Series :=
  Px.bar [Category "Region X"; Category "Region Y"; Category "Region Z"]
         [Int 50; Int 40; Int 25]
         "<b>Water Withdrawal by Region</b>".

(** *** 5. Social and governance *)

Definition scores : Script (list Q) := np_random (Np.normal 72 10 200).

Definition fig_dist (scores : list Q) : Series :=
  Px.box scores "<b>Supplier ESG Score Dist.</b>".

Definition fig_minerals : PieData :=
  mkPie ["Compliant"; "Non-Compliant"] [98; 2] "98%".

Definition fig_gauge : Z := 85.

Definition quarters : list datum :=
  [Category "Q1"; Category "Q2"; Category "Q3"; Category "Q4"].

Definition fig_inc : list Series :=
  [Go.Bar quarters [Int 4; Int 2; Int 5; Int 1] "Count";
   Go.Scatter quarters [Int 24; Int 12; Int 18; Int 8] "Hours"].

(** *** 6. Value chain map *)

Definition fig_sankey : SankeyData :=
  mkSankey
    ["Sourcing"; "Manufacturing"; "Distribution"; "Use Phase"; "Recycling"; "Landfill"]
    [0; 1; 1; 2; 3; 3]
    [1; 2; 5; 3; 4; 5]
    [100; 85; 15; 85; 60; 25].

(** *** The whole pass, in the order the script runs *)

Definition dashboard (selected_year : Z) (selected_scope : string) : Script Page :=
  let header := header_text selected_scope selected_year in
  let cards := [k1 selected_year; k2 selected_year; k3; k4; k5] in
  dates <- lift (dates selected_year) ;;
  trend_vals <- trend_vals ;;
  df_trend <- lift (df_trend dates trend_vals) ;;
  fig_ghg <- lift (fig_ghg df_trend) ;;
  fig_energy <- lift fig_energy ;;
  fig_water <- lift fig_water ;;
  scores <- scores ;;
  Ret (mkPage header cards fig_ghg fig_energy fig_water (fig_dist scores)
              fig_minerals fig_gauge fig_inc fig_sankey).

(* ===================================================================== *)
(** ** Reading a page *)
(* ===================================================================== *)

(** The six series of the page, in page order: the emissions trend, energy
    per facility, water per region, the score sample, incident counts and
    response hours per quarter. *)
Definition series_of (p : Page) : list Series :=
  ([ghg p; energy p; water p; dist p] ++ inc p)%list.

(** A series has an [x] sequence, and it is as long as its [y]. *)
Definition equal_lengths (s : Series) : Prop :=
  exists xs, x s = Some xs /\ length xs = length (y s).

(** The card with a given label. *)
Definition card (p : Page) (l : string) : option Metric :=
  find (fun m => String.eqb (label m) l) (cards p).

Definition in_percent_range (n : Z) : Prop := 0 <= n <= 100.

(** The value a pie chart holds for a label. *)
Fixpoint pie_lookup (ls : list string) (vs : list Z) (l : string) : option Z :=
  match ls, vs with
  | l' :: ls', v :: vs' => if String.eqb l' l then Some v else pie_lookup ls' vs' l
  | _, _ => None
  end.

Definition pie_value (pd : PieData) (l : string) : option Z :=
  pie_lookup (labels pd) (values pd) l.

(** The share of the whole pie a value stands for, in percent. *)
Definition share_percent (pd : PieData) (v : Z) : Q :=
  (inject_Z (100 * v) / inject_Z (fold_right Z.add 0%Z (values pd)))%Q.

(** Sum of the link values whose end (source or target) is [node]. *)
Fixpoint flow (node : Z) (ends vals : list Z) : Z :=
  match ends, vals with
  | e :: es, v :: vs => (if e =? node then v else 0) + flow node es vs
  | _, _ => 0
  end.

Definition incoming (sk : SankeyData) (node : Z) : Z :=
  flow node (link_target sk) (link_value sk).

Definition outgoing (sk : SankeyData) (node : Z) : Z :=
  flow node (link_source sk) (link_value sk).

(** A node that is both the target of a link and the source of a link. *)
Definition intermediate (sk : SankeyData) (node : Z) : bool :=
  existsb (Z.eqb node) (link_target sk) && existsb (Z.eqb node) (link_source sk).

(** Position of a label among the node labels. *)
Fixpoint index_of (l : string) (ls : list string) (i : Z) : option Z :=
  match ls with
  | [] => None
  | l' :: rest => if String.eqb l' l then Some i else index_of l rest (i + 1)
  end.

Definition node_index (sk : SankeyData) (l : string) : option Z :=
  index_of l (node_label sk) 0.

(** Two axis entries carry the same value. *)
Definition datum_eqb (a b : datum) : bool :=
  match a, b with
  | Category s, Category t => String.eqb s t
  | Date s, Date t =>
      (Pd.year s =? Pd.year t) && (Pd.month s =? Pd.month t) && (Pd.day s =? Pd.day t)
  | Int m, Int n => m =? n
  | Float p, Float q => Qeq_bool p q
  | _, _ => false
  end.

Fixpoint same_data (a b : list datum) : bool :=
  match a, b with
  | [], [] => true
  | u :: a', v :: b' => datum_eqb u v && same_data a' b'
  | _, _ => false
  end.

(** What of a page does not mention the header. *)
Definition page_data (p : Page)
  : list Metric * Series * Series * Series * Series * PieData * Z * list Series * SankeyData :=
  (cards p, ghg p, energy p, water p, dist p, minerals p, gauge p, inc p, sankey p).

(** The number of samples a call asks for. *)
Definition size_of (c : Np.call) : nat :=
  match c with
  | Np.normal _ _ size => size
  | Np.uniform _ _ size => size
  end.

(** The trend as the specification words it: uniform noise on the ramp.
    This one follows the specification, not the script; it is there to be
    compared with [trend_vals]. *)
Definition trend_vals_uniform (low high : Q) : Script (list Q) :=
  noise <- np_random (Np.uniform low high 12) ;;
  lift (Np.add ramp noise).

(** From state [s], some choice of bounds makes that wording produce the
    values the script produces. *)
Definition trend_by_uniform_noise {G : Np.BitGenerator} (s : Np.state) : Prop :=
  exists low high,
    fst (run trend_vals s) = fst (run (trend_vals_uniform low high) s).

(* ===================================================================== *)
(** ** The testable properties, as predicates on a page *)
(* ===================================================================== *)

(** Property 1 as the specification writes it: every series has an [x]
    as long as its [y]. *)
Definition lengths_agree (p : Page) : Prop :=
  Forall equal_lengths (series_of p).

(** Property 1 for the series that are given an [x]; the score sample is
    a [y] alone. *)
Definition lengths_agree_where_x (p : Page) : Prop :=
  Forall equal_lengths (ghg p :: energy p :: water p :: inc p) /\
  x (dist p) = None.

(** Property 2: the two cards that follow the fiscal year. *)
Definition fiscal_year_values (selected_year : Z) (p : Page) : Prop :=
  exists c1 c2,
    card p "Total GHG Emissions" = Some c1 /\
    card p "Energy Intensity" = Some c2 /\
    value c1 = (if selected_year =? 2024 then "54,000 tCO2e" else "49,500 tCO2e") /\
    value c2 = (if selected_year =? 2024 then "120 kWh/Unit" else "115 kWh/Unit").

(** Property 3: the compliance card and the compliant share of the
    conflict-minerals pie are percentages. *)
Definition percentages_in_range (p : Page) : Prop :=
  exists c n v,
    card p "ESRS Compliance" = Some c /\
    Fmt.parse_percent (value c) = Some n /\ in_percent_range n /\
    pie_value (minerals p) "Compliant" = Some v /\ in_percent_range v /\
    (0 <= share_percent (minerals p) v <= 100)%Q.

(** Property 4: the sizes of the two sampled series. *)
Definition sample_counts (p : Page) : Prop :=
  length (y (ghg p)) = 12%nat /\ length (y (dist p)) = 200%nat.

(** What is left of a result once the header is dropped. *)
Definition data_of_result (r : exn + Page) :=
  match r with
  | inl e => inl e
  | inr p => inr (page_data p)
  end.

(* ===================================================================== *)
(** ** A concrete generator, to run the script *)
(* ===================================================================== *)

Module Lcg.

(** A linear congruential generator on 31 bits.  The uniform draw scales
    the new state into [0, 1); the normal draw is a centred stand-in
    read off the same state. *)
Definition step (s : Z) : Z := (1103515245 * s + 12345) mod 2147483648.

Definition next_double (s : Z) : Q * Z :=
  let s' := step s in (Qmake s' 2147483648, s').

Definition next_gauss (s : Z) : Q * Z :=
  let s' := step s in (Qmake (s' mod 6001 - 3000) 1000, s').

#[export] Instance generator : Np.BitGenerator := {|
  Np.state := Z;
  Np.next_gauss := next_gauss;
  Np.next_double := next_double
|}.

End Lcg.

(* ===================================================================== *)
(** ** Counting the draws of a pass *)
(* ===================================================================== *)

Section Stream.
Context {G : Np.BitGenerator}.

(** The generator state after [n] normal draws. *)
Fixpoint advance (n : nat) (s : Np.state) : Np.state :=
  match n with
  | O => s
  | S k => advance k (snd (Np.next_gauss s))
  end.

(** The [k]-th normal draw from state [s], counting from 0. *)
Definition gauss_at (k : nat) (s : Np.state) : Q :=
  fst (Np.next_gauss (advance k s)).

End Stream.

(** The script is run again from the top on every interaction, in the same
    process: the second render finds the generator where the first one
    left it. *)
Definition rerun (year1 : Z) (scope1 : string) (year2 : Z) (scope2 : string)
  : Script (Page * Page) :=
  p1 <- dashboard year1 scope1 ;;
  p2 <- dashboard year2 scope2 ;;
  Ret (p1, p2).


(** The years all of whose month ends are timestamps at nanosecond
    resolution (which runs from 1677-09-21 to 2262-04-11). *)
Definition supported_year (y : Z) : Prop := 1678 <= y <= 2261.

(** The start text written for year [y] is ten characters long and reads
    back as the first of January of [y]. *)
Definition start_reads_back (y : Z) : bool :=
  Nat.eqb (String.length (Fmt.str y)) 4 &&
  match Pd.parse_date (Fmt.str y ++ "-01-01") with
  | inr t => (Pd.year t =? y) && (Pd.month t =? 1) && (Pd.day t =? 1)
  | inl _ => false
  end.

(* ===================================================================== *)
(** ** Library facts: lengths *)
(* ===================================================================== *)

Lemma month_ends_length (periods : nat) : forall y m,
  length (Pd.month_ends periods y m) = periods.
Proof.
  induction periods as [|n IH]; intros y m; simpl; [reflexivity|].
  destruct (m =? 12); rewrite IH; reflexivity.
Qed.

Lemma date_range_length (start : string) (periods : nat) (ds : list Pd.Timestamp) :
  Pd.date_range start periods = inr ds -> length ds = periods.
Proof.
  unfold Pd.date_range. destruct (Pd.parse_date start) as [e|t]; [discriminate|].
  intros H. injection H as <-. apply month_ends_length.
Qed.

Lemma set_last_length (v : list Q) (stop : Q) :
  length (Np.set_last v stop) = length v.
Proof.
  induction v as [|a [|b rest] IH]; simpl in *; try reflexivity.
  now rewrite IH.
Qed.

Lemma linspace_length (start stop : Q) (num : nat) :
  length (Np.linspace start stop num) = num.
Proof.
  unfold Np.linspace.
  destruct (1 <? num)%nat; [rewrite set_last_length|];
    destruct (0 <? num - 1)%nat; now rewrite !length_map, length_seq.
Qed.

Lemma zip_add_length (a : list Q) : forall b,
  length a = length b -> length (Np.zip_add a b) = length a.
Proof.
  induction a as [|u a IH]; intros [|v b] H; simpl in *; try congruence.
  now rewrite IH by congruence.
Qed.

Lemma add_same_shape (a b : list Q) :
  length a = length b -> Np.add a b = inr (Np.zip_add a b).
Proof.
  intros H. unfold Np.add. now rewrite H, Nat.eqb_refl.
Qed.

Section Generator.
Context {G : Np.BitGenerator}.

Lemma draws_length next f (size : nat) : forall s,
  length (fst (Np.draws next f size s)) = size.
Proof.
  induction size as [|n IH]; intros s; simpl; [reflexivity|].
  destruct (next s) as [z s1]. specialize (IH s1).
  destruct (Np.draws next f n s1) as [rest s2]. simpl in *. now rewrite IH.
Qed.

Lemma sample_length (c : Np.call) (s : Np.state) :
  length (fst (Np.sample c s)) = size_of c.
Proof. destruct c; apply draws_length. Qed.

End Generator.

(* ===================================================================== *)
(** ** Running the script *)
(* ===================================================================== *)

Lemma dates_length (selected_year : Z) (ds : list Pd.Timestamp) :
  dates selected_year = inr ds -> length ds = 12%nat.
Proof. apply date_range_length. Qed.

Lemma dates_fiscal (selected_year : Z) :
  In selected_year fiscal_years ->
  dates selected_year = inr (Pd.month_ends 12 selected_year 1).
Proof.
  intros [<-|[<-|[<-|[]]]]; reflexivity.
Qed.

Lemma ramp_length : length ramp = 12%nat.
Proof. apply linspace_length. Qed.

Lemma fig_ghg_trend (ds : list Pd.Timestamp) (vals : list Q) :
  length ds = length vals ->
  exists df, df_trend ds vals = inr df /\
             fig_ghg df = inr (mkSeries Area "<b>GHG Emissions Trend</b>"
                                        (Some (map Date ds)) (map Float vals)).
Proof.
  intros H. unfold df_trend, Pd.mkDataFrame. simpl Pd.same_lengths.
  rewrite H, Nat.eqb_refl. simpl. eexists. split; reflexivity.
Qed.

Section Runs.
Context {G : Np.BitGenerator}.

Lemma run_bind {A B : Type} (p : Script A) (f : A -> Script B) : forall s,
  run (bind p f) s =
  match run p s with
  | (inr a, s') => run (f a) s'
  | (inl e, s') => (inl e, s')
  end.
Proof.
  induction p as [a|e|c k IH]; intros s; simpl; try reflexivity.
  destruct (Np.sample c s) as [v s']. apply IH.
Qed.

Lemma run_lift {A : Type} (r : exn + A) (s : Np.state) : run (lift r) s = (r, s).
Proof. destruct r; reflexivity. Qed.

Lemma run_trend_vals (s s1 : Np.state) (noise : list Q) :
  Np.sample (Np.normal 0 100 12) s = (noise, s1) ->
  run trend_vals s = (inr (Np.zip_add ramp noise), s1).
Proof.
  intros E.
  pose proof (sample_length (Np.normal 0 100 12) s) as L. rewrite E in L. simpl in L.
  unfold trend_vals. rewrite run_bind. unfold np_random. cbn [run]. rewrite E.
  cbn [run]. rewrite run_lift.
  rewrite add_same_shape by (rewrite ramp_length; auto). reflexivity.
Qed.

Lemma run_scores (s : Np.state) : run scores s = (inr (fst (Np.sample (Np.normal 72 10 200) s)),
                                                  snd (Np.sample (Np.normal 72 10 200) s)).
Proof.
  unfold scores, np_random. cbn [run]. now destruct (Np.sample _ s).
Qed.

(** A pass whose date range cannot be built raises before anything is
    drawn. *)
Lemma run_dashboard_raise (selected_year : Z) (selected_scope : string)
      (s : Np.state) (e : exn) :
  dates selected_year = inl e ->
  run (dashboard selected_year selected_scope) s = (inl e, s).
Proof.
  intros E. unfold dashboard. rewrite run_bind, run_lift, E. reflexivity.
Qed.

(** A pass whose date range is built returns this page. *)
Lemma run_dashboard (selected_year : Z) (selected_scope : string)
      (s s1 s2 : Np.state) (ds : list Pd.Timestamp) (noise sample : list Q)
      (fe fw : Series) :
  dates selected_year = inr ds ->
  Np.sample (Np.normal 0 100 12) s = (noise, s1) ->
  Np.sample (Np.normal 72 10 200) s1 = (sample, s2) ->
  fig_energy = inr fe ->
  fig_water = inr fw ->
  run (dashboard selected_year selected_scope) s =
  (inr (mkPage (header_text selected_scope selected_year)
               [k1 selected_year; k2 selected_year; k3; k4; k5]
               (mkSeries Area "<b>GHG Emissions Trend</b>"
                         (Some (map Date ds))
                         (map Float (Np.zip_add ramp noise)))
               fe fw (fig_dist sample)
               fig_minerals fig_gauge fig_inc fig_sankey),
   s2).
Proof.
  intros Ed E1 E2 He Hw.
  pose proof (sample_length (Np.normal 0 100 12) s) as L. rewrite E1 in L. simpl in L.
  destruct (fig_ghg_trend ds (Np.zip_add ramp noise)) as (df & Hdf & Hfig).
  { rewrite zip_add_length by (rewrite ramp_length; auto).
    rewrite ramp_length. now apply dates_length in Ed. }
  unfold dashboard.
  rewrite run_bind, run_lift, Ed.
  rewrite run_bind, (run_trend_vals _ _ _ E1).
  rewrite run_bind, run_lift, Hdf.
  rewrite run_bind, run_lift, Hfig.
  rewrite run_bind, run_lift, He.
  rewrite run_bind, run_lift, Hw.
  rewrite run_bind, run_scores, E2. reflexivity.
Qed.

End Runs.

(** Run one pass for a fiscal year from state [s]: name the two samples
    and record the page the pass returns. *)
Ltac run_pass Hy sc s :=
  let noise := fresh "noise" in
  let s1 := fresh "s1" in
  let sample := fresh "sample" in
  let s2 := fresh "s2" in
  let E1 := fresh "E1" in
  let E2 := fresh "E2" in
  let Hrun := fresh "Hrun" in
  destruct (Np.sample (Np.normal 0 100 12) s) as [noise s1] eqn:E1;
  destruct (Np.sample (Np.normal 72 10 200) s1) as [sample s2] eqn:E2;
  pose proof (run_dashboard _ sc _ _ _ _ _ _ _ _
                            (dates_fiscal _ Hy) E1 E2 eq_refl eq_refl) as Hrun;
  pose proof (sample_length (Np.normal 0 100 12) s) as L1;
  pose proof (sample_length (Np.normal 72 10 200) s1) as L2;
  rewrite E1 in L1; rewrite E2 in L2; simpl in L1, L2.

(* ===================================================================== *)
(** ** The fiscal-year branch *)
(* ===================================================================== *)

(** C1.  For every fiscal year of the select box (2025, 2024, 2023), with
    any scope and any state of the random generator, the pass returns a
    page; the emissions total is 54000 (card text "54,000 tCO2e") and the
    energy intensity 120 ("120 kWh/Unit") when the year is 2024, and they
    are 49500 ("49,500 tCO2e") and 115 ("115 kWh/Unit") otherwise. *)
Theorem fiscal_year_branch (G : Np.BitGenerator) (selected_year : Z)
        (selected_scope : string) (s : Np.state) :
  In selected_year fiscal_years ->
  exists p s',
    run (dashboard selected_year selected_scope) s = (inr p, s') /\
    (selected_year = 2024 ->
       val_ghg selected_year = 54000 /\ val_energy selected_year = 120 /\
       card p "Total GHG Emissions" =
         Some (st_metric "Total GHG Emissions" "54,000 tCO2e" "-8.5%") /\
       card p "Energy Intensity" =
         Some (st_metric "Energy Intensity" "120 kWh/Unit" "-4.2%")) /\
    (selected_year <> 2024 ->
       val_ghg selected_year = 49500 /\ val_energy selected_year = 115 /\
       card p "Total GHG Emissions" =
         Some (st_metric "Total GHG Emissions" "49,500 tCO2e" "-8.5%") /\
       card p "Energy Intensity" =
         Some (st_metric "Energy Intensity" "115 kWh/Unit" "-4.2%")).
Proof.
  intros Hy. run_pass Hy selected_scope s.
  eexists. eexists. split; [exact Hrun|].
  destruct Hy as [<-|[<-|[<-|[]]]]; split; intros H;
    try discriminate; try (now elim H); repeat split.
Qed.

Lemma fiscal_year_branch_witness :
  In 2024 fiscal_years /\
  exists p s',
    @run Lcg.generator _ (dashboard 2024 "EMEA") 1 = (inr p, s') /\
    (2024 = 2024 ->
       val_ghg 2024 = 54000 /\ val_energy 2024 = 120 /\
       card p "Total GHG Emissions" =
         Some (st_metric "Total GHG Emissions" "54,000 tCO2e" "-8.5%") /\
       card p "Energy Intensity" =
         Some (st_metric "Energy Intensity" "120 kWh/Unit" "-4.2%")) /\
    (2024 <> 2024 ->
       val_ghg 2024 = 49500 /\ val_energy 2024 = 115 /\
       card p "Total GHG Emissions" =
         Some (st_metric "Total GHG Emissions" "49,500 tCO2e" "-8.5%") /\
       card p "Energy Intensity" =
         Some (st_metric "Energy Intensity" "115 kWh/Unit" "-4.2%")).
Proof.
  split; [simpl; auto|].
  apply (fiscal_year_branch Lcg.generator 2024 "EMEA" 1). simpl; auto.
Defined.

(* ===================================================================== *)
(** ** Conservation in the value-chain flow *)
(* ===================================================================== *)

Lemma intermediate_nodes (node : Z) :
  intermediate fig_sankey node = true -> node = 1 \/ node = 2 \/ node = 3.
Proof.
  unfold intermediate, fig_sankey. simpl.
  destruct (Z.eqb_spec node 1); auto.
  destruct (Z.eqb_spec node 2); auto.
  destruct (Z.eqb_spec node 3); auto.
  destruct (Z.eqb_spec node 5) as [->|]; simpl; [discriminate|].
  destruct (Z.eqb_spec node 4) as [->|]; simpl; discriminate.
Qed.

(** C2.  On the page of any pass for an enumerated year, every node of the
    Sankey data that is both a target and a source of links sends out no
    more than it receives; the node labelled "Manufacturing" receives 100
    and sends 85 + 15 = 100. *)
Theorem sankey_conservation (G : Np.BitGenerator) (selected_year : Z)
        (selected_scope : string) (s : Np.state) :
  In selected_year fiscal_years ->
  exists p s',
    run (dashboard selected_year selected_scope) s = (inr p, s') /\
    (forall node, intermediate (sankey p) node = true ->
                  outgoing (sankey p) node <= incoming (sankey p) node) /\
    exists m, node_index (sankey p) "Manufacturing" = Some m /\
              intermediate (sankey p) m = true /\
              incoming (sankey p) m = 100 /\
              outgoing (sankey p) m = 85 + 15.
Proof.
  intros Hy. run_pass Hy selected_scope s.
  eexists. eexists. split; [exact Hrun|]. cbn [sankey]. split.
  - intros node H. apply intermediate_nodes in H.
    destruct H as [->|[->| ->]]; vm_compute; discriminate.
  - exists 1. repeat split.
Qed.

Lemma sankey_conservation_witness :
  In 2023 fiscal_years /\
  exists p s',
    @run Lcg.generator _ (dashboard 2023 "APAC") 7 = (inr p, s') /\
    (forall node, intermediate (sankey p) node = true ->
                  outgoing (sankey p) node <= incoming (sankey p) node) /\
    exists m, node_index (sankey p) "Manufacturing" = Some m /\
              intermediate (sankey p) m = true /\
              incoming (sankey p) m = 100 /\
              outgoing (sankey p) m = 85 + 15.
Proof.
  split; [simpl; auto|].
  apply (sankey_conservation Lcg.generator 2023 "APAC" 7). simpl; auto.
Defined.

(* ===================================================================== *)
(** ** Sample counts *)
(* ===================================================================== *)

(** C4.  Whatever the enumerated year, the scope and the state of the
    random generator, the emissions trend of the returned page has exactly
    12 points and the supplier score sample exactly 200.  The two sampling
    steps themselves return 12 and 200 values from every state, with no
    condition on the inputs. *)
Theorem sampled_series_counts (G : Np.BitGenerator) (selected_year : Z)
        (selected_scope : string) (s : Np.state) :
  In selected_year fiscal_years ->
  (exists p s',
     run (dashboard selected_year selected_scope) s = (inr p, s') /\
     length (y (ghg p)) = 12%nat /\
     length (y (dist p)) = 200%nat) /\
  (forall s0, exists v s', run trend_vals s0 = (inr v, s') /\ length v = 12%nat) /\
  (forall s0, exists v s', run scores s0 = (inr v, s') /\ length v = 200%nat).
Proof.
  intros Hy. split; [|split].
  - run_pass Hy selected_scope s.
    eexists. eexists. split; [exact Hrun|]. cbn [ghg dist y fig_dist Px.box].
    rewrite !length_map, zip_add_length by (rewrite ramp_length; auto).
    split; [apply ramp_length | exact L2].
  - intros s0. eexists. eexists.
    split; [exact (run_trend_vals _ _ _ (surjective_pairing _))|].
    rewrite zip_add_length; rewrite ramp_length; [reflexivity|].
    symmetry. apply (sample_length (Np.normal 0 100 12)).
  - intros s0. eexists. eexists. split; [apply run_scores|].
    apply (sample_length (Np.normal 72 10 200)).
Qed.

Lemma sampled_series_counts_witness :
  In 2025 fiscal_years /\
  (exists p s',
     @run Lcg.generator _ (dashboard 2025 "Global") 42 = (inr p, s') /\
     length (y (ghg p)) = 12%nat /\
     length (y (dist p)) = 200%nat) /\
  (forall s0, exists v s',
     @run Lcg.generator _ trend_vals s0 = (inr v, s') /\ length v = 12%nat) /\
  (forall s0, exists v s',
     @run Lcg.generator _ scores s0 = (inr v, s') /\ length v = 200%nat).
Proof.
  split; [simpl; auto|].
  apply (sampled_series_counts Lcg.generator 2025 "Global" 42). simpl; auto.
Defined.

(* ===================================================================== *)
(** ** Cards that do not follow the fiscal year *)
(* ===================================================================== *)

(** C5.  For any two fiscal years of the select box, with the same scope
    and generator state, the water withdrawal, compliance and supplier
    score cards of the two pages are the same card: label, text, delta and
    delta colour. *)
Theorem other_cards_unchanged (G : Np.BitGenerator) (year1 year2 : Z)
        (selected_scope : string) (s : Np.state) :
  In year1 fiscal_years ->
  In year2 fiscal_years ->
  exists p1 s1 p2 s2,
    run (dashboard year1 selected_scope) s = (inr p1, s1) /\
    run (dashboard year2 selected_scope) s = (inr p2, s2) /\
    card p1 "Water Withdrawal" = Some k3 /\ card p2 "Water Withdrawal" = Some k3 /\
    card p1 "ESRS Compliance" = Some k4 /\ card p2 "ESRS Compliance" = Some k4 /\
    card p1 "Supplier ESG Score" = Some k5 /\ card p2 "Supplier ESG Score" = Some k5 /\
    skipn 2 (cards p1) = skipn 2 (cards p2).
Proof.
  intros H1 H2.
  destruct (Np.sample (Np.normal 0 100 12) s) as [noise s1] eqn:E1.
  destruct (Np.sample (Np.normal 72 10 200) s1) as [sample s2] eqn:E2.
  pose proof (run_dashboard _ selected_scope _ _ _ _ _ _ _ _
                            (dates_fiscal _ H1) E1 E2 eq_refl eq_refl) as R1.
  pose proof (run_dashboard _ selected_scope _ _ _ _ _ _ _ _
                            (dates_fiscal _ H2) E1 E2 eq_refl eq_refl) as R2.
  do 4 eexists. split; [exact R1|]. split; [exact R2|].
  repeat split.
Qed.

Lemma other_cards_unchanged_witness :
  In 2024 fiscal_years /\ In 2023 fiscal_years /\
  exists p1 s1 p2 s2,
    @run Lcg.generator _ (dashboard 2024 "EMEA") 5 = (inr p1, s1) /\
    @run Lcg.generator _ (dashboard 2023 "EMEA") 5 = (inr p2, s2) /\
    card p1 "Water Withdrawal" = Some k3 /\ card p2 "Water Withdrawal" = Some k3 /\
    card p1 "ESRS Compliance" = Some k4 /\ card p2 "ESRS Compliance" = Some k4 /\
    card p1 "Supplier ESG Score" = Some k5 /\ card p2 "Supplier ESG Score" = Some k5 /\
    skipn 2 (cards p1) = skipn 2 (cards p2).
Proof.
  split; [simpl; auto|]. split; [simpl; auto|].
  apply (other_cards_unchanged Lcg.generator 2024 2023 "EMEA" 5); simpl; auto.
Defined.

(* ===================================================================== *)
(** ** Percentages *)
(* ===================================================================== *)

(** C6.  For every enumerated year and scope, the compliance card reads as
    a percentage between 0 and 100 (it is "88%"), and the compliant value of
    the conflict-minerals pie (98, which is also its share of the pie in
    percent) lies between 0 and 100.  The readiness gauge, 85 on a scale
    that ends at 100, is in the same range. *)
Theorem percentages_bounded (G : Np.BitGenerator) (selected_year : Z)
        (selected_scope : string) (s : Np.state) :
  In selected_year fiscal_years ->
  In selected_scope scopes ->
  exists p s',
    run (dashboard selected_year selected_scope) s = (inr p, s') /\
    percentages_in_range p /\
    card p "ESRS Compliance" = Some k4 /\
    Fmt.parse_percent (value k4) = Some 88 /\
    pie_value (minerals p) "Compliant" = Some 98 /\
    (share_percent (minerals p) 98 == 98)%Q /\
    in_percent_range (gauge p).
Proof.
  intros Hy _. run_pass Hy selected_scope s.
  eexists. eexists. split; [exact Hrun|].
  split; [|repeat split; try reflexivity; cbn [gauge]; unfold fig_gauge; lia].
  exists k4, 88, 98. unfold in_percent_range.
  repeat split; try lia; unfold Qle; simpl; lia.
Qed.

Lemma percentages_bounded_witness :
  In 2025 fiscal_years /\ In "North America" scopes /\
  exists p s',
    @run Lcg.generator _ (dashboard 2025 "North America") 11 = (inr p, s') /\
    percentages_in_range p /\
    card p "ESRS Compliance" = Some k4 /\
    Fmt.parse_percent (value k4) = Some 88 /\
    pie_value (minerals p) "Compliant" = Some 98 /\
    (share_percent (minerals p) 98 == 98)%Q /\
    in_percent_range (gauge p).
Proof.
  split; [simpl; auto|]. split; [simpl; auto|].
  apply (percentages_bounded Lcg.generator 2025 "North America" 11); simpl; auto.
Defined.

(* ===================================================================== *)
(** ** Totality on the enumerated inputs *)
(* ===================================================================== *)

(** C9.  For every fiscal year in 2025, 2024, 2023 and every scope in
    Global, North America, EMEA, APAC, from any state of the random
    generator, the pass returns a page with its five cards and six series:
    no exception is raised, neither by the date range, the array addition,
    the data frame, the column lookups nor the bar charts. *)
Theorem dashboard_total (G : Np.BitGenerator) (selected_year : Z)
        (selected_scope : string) (s : Np.state) :
  In selected_year fiscal_years ->
  In selected_scope scopes ->
  (exists p s',
     run (dashboard selected_year selected_scope) s = (inr p, s') /\
     length (cards p) = 5%nat /\ length (series_of p) = 6%nat) /\
  (forall e s', run (dashboard selected_year selected_scope) s <> (inl e, s')).
Proof.
  intros Hy _. run_pass Hy selected_scope s. split.
  - eexists. eexists. split; [exact Hrun|]. split; reflexivity.
  - intros e s'. rewrite Hrun. discriminate.
Qed.

Lemma dashboard_total_witness :
  In 2023 fiscal_years /\ In "Global" scopes /\
  (exists p s',
     @run Lcg.generator _ (dashboard 2023 "Global") 0 = (inr p, s') /\
     length (cards p) = 5%nat /\ length (series_of p) = 6%nat) /\
  (forall e s', @run Lcg.generator _ (dashboard 2023 "Global") 0 <> (inl e, s')).
Proof.
  split; [simpl; auto|]. split; [simpl; auto|].
  apply (dashboard_total Lcg.generator 2023 "Global" 0); simpl; auto.
Defined.

(* ===================================================================== *)
(** ** The scope *)
(* ===================================================================== *)

(** C10.  For any year, any generator and state, and any two scopes, the
    two passes agree on everything but the header: the same cards, the
    same series (x and y), the same pie, gauge and Sankey data, or the same
    exception, and the same generator state afterwards.  The scope appears
    in the header text only. *)
Theorem scope_only_in_header (G : Np.BitGenerator) (selected_year : Z)
        (scope1 scope2 : string) (s : Np.state) :
  data_of_result (fst (run (dashboard selected_year scope1) s)) =
  data_of_result (fst (run (dashboard selected_year scope2) s)) /\
  snd (run (dashboard selected_year scope1) s) =
  snd (run (dashboard selected_year scope2) s) /\
  match fst (run (dashboard selected_year scope1) s) with
  | inr p => header p = header_text scope1 selected_year
  | inl _ => True
  end.
Proof.
  destruct (dates selected_year) as [e|ds] eqn:Ed.
  - rewrite !(run_dashboard_raise _ _ _ _ Ed). simpl. auto.
  - destruct (Np.sample (Np.normal 0 100 12) s) as [noise s1] eqn:E1.
    destruct (Np.sample (Np.normal 72 10 200) s1) as [sample s2] eqn:E2.
    rewrite (run_dashboard _ scope1 _ _ _ _ _ _ _ _ Ed E1 E2 eq_refl eq_refl).
    rewrite (run_dashboard _ scope2 _ _ _ _ _ _ _ _ Ed E1 E2 eq_refl eq_refl).
    simpl. auto.
Qed.

(* ===================================================================== *)
(** ** Lengths of x and y *)
(* ===================================================================== *)

Lemma equal_lengths_intro (k : chart) (n : string) (xs ys : list datum) :
  length xs = length ys -> equal_lengths (mkSeries k n (Some xs) ys).
Proof. intros H. exists xs. split; [reflexivity | exact H]. Qed.

Lemma no_x_not_equal_lengths (sr : Series) : x sr = None -> ~ equal_lengths sr.
Proof. intros H (xs & Hx & _). congruence. Qed.

Lemma lengths_agree_needs_x (p : Page) : x (dist p) = None -> ~ lengths_agree p.
Proof.
  intros Hx H. unfold lengths_agree, series_of in H.
  rewrite Forall_forall in H.
  apply (no_x_not_equal_lengths (dist p) Hx), H. simpl. auto.
Qed.

Lemma page_lengths (selected_scope : string) (selected_year : Z)
      (ds : list Pd.Timestamp) (noise sample : list Q) (fe fw : Series) :
  length ds = 12%nat -> length noise = 12%nat ->
  fig_energy = inr fe -> fig_water = inr fw ->
  lengths_agree_where_x
    (mkPage (header_text selected_scope selected_year)
            [k1 selected_year; k2 selected_year; k3; k4; k5]
            (mkSeries Area "<b>GHG Emissions Trend</b>"
                      (Some (map Date ds)) (map Float (Np.zip_add ramp noise)))
            fe fw (fig_dist sample) fig_minerals fig_gauge fig_inc fig_sankey).
Proof.
  intros Hd Hn He Hw. injection He as <-. injection Hw as <-.
  split; [|reflexivity]. cbn [ghg energy water inc fig_inc].
  repeat constructor; try (apply equal_lengths_intro; reflexivity).
  apply equal_lengths_intro.
  rewrite !length_map, zip_add_length by (rewrite ramp_length; congruence).
  rewrite ramp_length. exact Hd.
Qed.

(** C3, as the code has it.  For every enumerated year, any scope and any
    generator state, the series that are given an x sequence (the
    emissions trend, energy per facility, water per region, incident
    counts and response hours per quarter) have x and y of equal length.
    The score sample is passed as a y alone: it has no x sequence, and 200
    y values. *)
Theorem series_lengths (G : Np.BitGenerator) (selected_year : Z)
        (selected_scope : string) (s : Np.state) :
  In selected_year fiscal_years ->
  exists p s',
    run (dashboard selected_year selected_scope) s = (inr p, s') /\
    Forall equal_lengths [ghg p; energy p; water p] /\
    Forall equal_lengths (inc p) /\
    map name (inc p) = ["Count"; "Hours"] /\
    x (dist p) = None /\
    length (y (dist p)) = 200%nat.
Proof.
  intros Hy. run_pass Hy selected_scope s.
  eexists. eexists. split; [exact Hrun|].
  destruct (page_lengths selected_scope selected_year
              (Pd.month_ends 12 selected_year 1) noise sample _ _
              (month_ends_length _ _ _) L1 eq_refl eq_refl) as [HF Hx].
  cbn [ghg energy water inc dist] in HF |- *.
  inversion HF as [|? ? Hg HF1]; subst. inversion HF1 as [|? ? He HF2]; subst.
  inversion HF2 as [|? ? Hw HF3]; subst.
  split; [repeat constructor; assumption|].
  split; [exact HF3|]. split; [reflexivity|]. split; [reflexivity|].
  cbn [fig_dist Px.box y]. now rewrite length_map.
Qed.

Lemma series_lengths_witness :
  In 2024 fiscal_years /\
  exists p s',
    @run Lcg.generator _ (dashboard 2024 "APAC") 3 = (inr p, s') /\
    Forall equal_lengths [ghg p; energy p; water p] /\
    Forall equal_lengths (inc p) /\
    map name (inc p) = ["Count"; "Hours"] /\
    x (dist p) = None /\
    length (y (dist p)) = 200%nat.
Proof.
  split; [simpl; auto|].
  apply (series_lengths Lcg.generator 2024 "APAC" 3). simpl; auto.
Defined.

(** The length property in the specification's wording, over all six
    series, fails on the score sample: the pass for 2025, "Global" from
    state 1 returns a page on which not every series has an x sequence as
    long as its y. *)
Lemma score_sample_has_no_x :
  exists p s',
    @run Lcg.generator _ (dashboard 2025 "Global") 1 = (inr p, s') /\
    In (dist p) (series_of p) /\
    x (dist p) = None /\
    ~ lengths_agree p.
Proof.
  assert (Hy : In 2025 fiscal_years) by (simpl; auto).
  run_pass Hy "Global" (1 : @Np.state Lcg.generator).
  eexists. eexists. split; [exact Hrun|].
  split; [simpl; auto|]. split; [reflexivity|].
  apply lengths_agree_needs_x. reflexivity.
Qed.

(* ===================================================================== *)
(** ** Which distribution is sampled *)
(* ===================================================================== *)

Lemma inr_eq {A B : Type} (a b : B) : @inr A B a = inr b -> a = b.
Proof. congruence. Qed.

Lemma Qeq_of_eq (a b : Q) : a = b -> (a == b)%Q.
Proof. intros ->. reflexivity. Qed.

Section Calls.
Context {G : Np.BitGenerator}.

Lemma draws_map next (f : Q -> Q) (size : nat) : forall s,
  Np.draws next f size s =
  (map f (fst (Np.draws next (fun z => z) size s)),
   snd (Np.draws next (fun z => z) size s)).
Proof.
  induction size as [|n IH]; intros s; simpl; [reflexivity|].
  destruct (next s) as [z s1]. rewrite IH.
  destruct (Np.draws next (fun z0 => z0) n s1) as [rest s2]. reflexivity.
Qed.

Lemma calls_bind {A B : Type} (p : Script A) (f : A -> Script B) : forall s,
  calls (bind p f) s =
  (calls p s ++
   match run p s with
   | (inr a, s') => calls (f a) s'
   | (inl _, _) => []
   end)%list.
Proof.
  induction p as [a|e|c k IH]; intros s; simpl; try reflexivity.
  destruct (Np.sample c s) as [v s']. now rewrite IH.
Qed.

Lemma calls_lift {A : Type} (r : exn + A) (s : Np.state) : calls (lift r) s = [].
Proof. destruct r; reflexivity. Qed.

Lemma calls_np_random (c : Np.call) (s : Np.state) : calls (np_random c) s = [c].
Proof. unfold np_random. cbn [calls]. now destruct (Np.sample c s). Qed.

Lemma calls_trend_vals (s : Np.state) : calls trend_vals s = [Np.normal 0 100 12].
Proof.
  unfold trend_vals. rewrite calls_bind, calls_np_random.
  destruct (run _ s) as [[e|a] s']; [reflexivity|]. now rewrite calls_lift.
Qed.

Lemma calls_dashboard (selected_year : Z) (selected_scope : string)
      (s : Np.state) (ds : list Pd.Timestamp) :
  dates selected_year = inr ds ->
  calls (dashboard selected_year selected_scope) s =
  [Np.normal 0 100 12; Np.normal 72 10 200].
Proof.
  intros Ed.
  destruct (Np.sample (Np.normal 0 100 12) s) as [noise s1] eqn:E1.
  pose proof (sample_length (Np.normal 0 100 12) s) as L. rewrite E1 in L. simpl in L.
  destruct (fig_ghg_trend ds (Np.zip_add ramp noise)) as (df & Hdf & Hfig).
  { rewrite zip_add_length by (rewrite ramp_length; auto).
    rewrite ramp_length. now apply dates_length in Ed. }
  unfold dashboard.
  rewrite calls_bind, calls_lift, run_lift, Ed. cbn [app].
  rewrite calls_bind, calls_trend_vals, (run_trend_vals _ _ _ E1). cbn [app].
  f_equal.
  rewrite calls_bind, calls_lift, run_lift, Hdf. cbn [app].
  rewrite calls_bind, calls_lift, run_lift, Hfig. cbn [app].
  rewrite calls_bind, calls_lift, run_lift. cbn [app fig_energy Px.bar length Nat.eqb].
  rewrite calls_bind, calls_lift, run_lift. cbn [app fig_water Px.bar length Nat.eqb].
  rewrite calls_bind. unfold scores at 1. rewrite calls_np_random, run_scores.
  reflexivity.
Qed.

Lemma run_trend_vals_uniform (low high : Q) (s s1 : Np.state) (noise : list Q) :
  Np.sample (Np.uniform low high 12) s = (noise, s1) ->
  run (trend_vals_uniform low high) s = (inr (Np.zip_add ramp noise), s1).
Proof.
  intros E.
  pose proof (sample_length (Np.uniform low high 12) s) as L. rewrite E in L. simpl in L.
  unfold trend_vals_uniform. rewrite run_bind. unfold np_random. cbn [run]. rewrite E.
  cbn [run]. rewrite run_lift.
  rewrite add_same_shape by (rewrite ramp_length; auto). reflexivity.
Qed.

End Calls.

(** The ramp is linear: point [i] is [6000 - i * 1500/11], from 6000 down
    to 4500. *)
Lemma ramp_linear :
  Forall2 Qeq ramp (map (fun i => 6000 - inject_Z (Z.of_nat i) * (1500 # 11))%Q (seq 0 12)).
Proof. repeat constructor. Qed.

(** C8, as the code has it.  For every enumerated year, any scope and any
    generator state, the pass makes exactly two calls to the random
    generator, both normal: [normal(0, 100, 12)] and then
    [normal(72, 10, 200)].  The trend values are the linear ramp from 6000
    to 4500 plus the twelve normal draws (mean 0, scale 100), point by
    point, and the score sample is the 200 normal draws (mean 72, scale
    10). *)
Theorem sampling_is_normal (G : Np.BitGenerator) (selected_year : Z)
        (selected_scope : string) (s : Np.state) :
  In selected_year fiscal_years ->
  exists p noise s1 sample s2,
    Np.sample (Np.normal 0 100 12) s = (noise, s1) /\
    Np.sample (Np.normal 72 10 200) s1 = (sample, s2) /\
    run (dashboard selected_year selected_scope) s = (inr p, s2) /\
    calls (dashboard selected_year selected_scope) s =
      [Np.normal 0 100 12; Np.normal 72 10 200] /\
    y (ghg p) = map Float (Np.zip_add ramp noise) /\
    length noise = length ramp /\
    Forall2 Qeq ramp
      (map (fun i => 6000 - inject_Z (Z.of_nat i) * (1500 # 11))%Q (seq 0 12)) /\
    y (dist p) = map Float sample.
Proof.
  intros Hy. run_pass Hy selected_scope s.
  eexists. exists noise, s1, sample, s2.
  split; [reflexivity|]. split; [exact E2|]. split; [exact Hrun|].
  split; [exact (calls_dashboard _ _ _ _ (dates_fiscal _ Hy))|].
  split; [reflexivity|]. split; [now rewrite ramp_length|].
  split; [exact ramp_linear | reflexivity].
Qed.

Lemma sampling_is_normal_witness :
  In 2025 fiscal_years /\
  exists p noise s1 sample s2,
    @Np.sample Lcg.generator (Np.normal 0 100 12) 9 = (noise, s1) /\
    @Np.sample Lcg.generator (Np.normal 72 10 200) s1 = (sample, s2) /\
    @run Lcg.generator _ (dashboard 2025 "EMEA") 9 = (inr p, s2) /\
    @calls Lcg.generator _ (dashboard 2025 "EMEA") 9 =
      [Np.normal 0 100 12; Np.normal 72 10 200] /\
    y (ghg p) = map Float (Np.zip_add ramp noise) /\
    length noise = length ramp /\
    Forall2 Qeq ramp
      (map (fun i => 6000 - inject_Z (Z.of_nat i) * (1500 # 11))%Q (seq 0 12)) /\
    y (dist p) = map Float sample.
Proof.
  split; [simpl; auto|].
  apply (sampling_is_normal Lcg.generator 2025 "EMEA" 9). simpl; auto.
Defined.

(** The trend is not uniform noise on the ramp.  In the pass for 2025,
    "Global" from state 1, no call to the generator is a uniform one, and
    whatever bounds are chosen, uniform noise added to the ramp from that
    state does not give the trend values the script computes. *)
Lemma trend_noise_not_uniform :
  (forall low high size,
     ~ In (Np.uniform low high size)
          (@calls Lcg.generator _ (dashboard 2025 "Global") 1)) /\
  ~ @trend_by_uniform_noise Lcg.generator 1.
Proof.
  split.
  - intros low high size.
    rewrite (calls_dashboard 2025 "Global" _ _ eq_refl).
    intros [H|[H|[]]]; discriminate.
  - intros (low & high & H).
    rewrite (@run_trend_vals Lcg.generator 1 _ _ (surjective_pairing _)) in H.
    rewrite (@run_trend_vals_uniform Lcg.generator low high 1 _ _
                                     (surjective_pairing _)) in H.
    cbn [fst] in H. apply inr_eq in H.
    unfold Np.sample in H.
    rewrite (draws_map _ (fun z => 0 + 100 * z)%Q) in H.
    rewrite (draws_map _ (fun u => low + (high - low) * u)%Q) in H.
    cbn [fst] in H.
    set (zs := fst (Np.draws Np.next_gauss _ 12 _)) in H.
    set (us := fst (Np.draws Np.next_double _ 12 _)) in H.
    vm_compute in zs, us. unfold ramp in H.
    set (r := Np.linspace _ _ _) in H. vm_compute in r.
    subst zs us r. cbn [map Np.zip_add] in H.
    pose proof (f_equal (fun l => nth 0 l 0%Q) H) as H0.
    pose proof (f_equal (fun l => nth 1 l 0%Q) H) as H1.
    pose proof (f_equal (fun l => nth 2 l 0%Q) H) as H2.
    cbv beta in H0, H1, H2. cbn [nth] in H0, H1, H2. clear H.
    apply Qeq_of_eq in H0, H1, H2. lra.
Qed.

(* ===================================================================== *)
(** ** Two passes on the same inputs *)
(* ===================================================================== *)

(** C7, as the code has it.  For every enumerated year and scope: (a) two
    passes on these same inputs can differ in their sampled values (with
    the generator [Lcg], the passes from states 1 and 2 return different
    trend values and different score samples); and (b) for every generator
    and every state the pass returns a page on which the series that have
    an x sequence have x and y of equal length (the score sample has none),
    the two fiscal-year cards carry their documented values, the
    percentages lie in [0, 100], and the trend has 12 points and the score
    sample 200. *)
Theorem passes_differ_invariants_hold (selected_year : Z) (selected_scope : string) :
  In selected_year fiscal_years ->
  In selected_scope scopes ->
  (exists (G : Np.BitGenerator) (sa sb : Np.state) pa sa' pb sb',
      run (dashboard selected_year selected_scope) sa = (inr pa, sa') /\
      run (dashboard selected_year selected_scope) sb = (inr pb, sb') /\
      same_data (y (ghg pa)) (y (ghg pb)) = false /\
      same_data (y (dist pa)) (y (dist pb)) = false) /\
  (forall (G : Np.BitGenerator) (s : Np.state),
      exists p s',
        run (dashboard selected_year selected_scope) s = (inr p, s') /\
        lengths_agree_where_x p /\
        fiscal_year_values selected_year p /\
        percentages_in_range p /\
        sample_counts p).
Proof.
  intros Hy _. split.
  - exists Lcg.generator, 1, 2. do 4 eexists.
    split; [exact (run_dashboard _ selected_scope _ _ _ _ _ _ _ _
                                 (dates_fiscal _ Hy) (surjective_pairing _)
                                 (surjective_pairing _) eq_refl eq_refl)|].
    split; [exact (run_dashboard _ selected_scope _ _ _ _ _ _ _ _
                                 (dates_fiscal _ Hy) (surjective_pairing _)
                                 (surjective_pairing _) eq_refl eq_refl)|].
    cbn [ghg dist y fig_dist Px.box]. split; vm_compute; reflexivity.
  - intros G s. run_pass Hy selected_scope s.
    eexists. eexists. split; [exact Hrun|].
    split; [exact (page_lengths _ _ _ _ _ _ _ (month_ends_length _ _ _) L1
                                eq_refl eq_refl)|].
    split.
    { exists (k1 selected_year), (k2 selected_year).
      destruct Hy as [<-|[<-|[<-|[]]]]; repeat split. }
    split.
    { exists k4, 88, 98. unfold in_percent_range.
      repeat split; try lia; unfold Qle; simpl; lia. }
    unfold sample_counts. cbn [ghg dist y fig_dist Px.box].
    rewrite !length_map, zip_add_length by (rewrite ramp_length; auto).
    split; [apply ramp_length | exact L2].
Qed.

Lemma passes_differ_invariants_hold_witness :
  In 2024 fiscal_years /\ In "Global" scopes /\
  (exists (G : Np.BitGenerator) (sa sb : Np.state) pa sa' pb sb',
      run (dashboard 2024 "Global") sa = (inr pa, sa') /\
      run (dashboard 2024 "Global") sb = (inr pb, sb') /\
      same_data (y (ghg pa)) (y (ghg pb)) = false /\
      same_data (y (dist pa)) (y (dist pb)) = false) /\
  (forall (G : Np.BitGenerator) (s : Np.state),
      exists p s',
        run (dashboard 2024 "Global") s = (inr p, s') /\
        lengths_agree_where_x p /\
        fiscal_year_values 2024 p /\
        percentages_in_range p /\
        sample_counts p).
Proof.
  split; [simpl; auto|]. split; [simpl; auto|].
  apply (passes_differ_invariants_hold 2024 "Global"); simpl; auto.
Defined.

(** With the first property in the specification's wording, over all six
    series, the four properties do not hold together: the pass for 2024,
    "North America" from state 3 returns a page that has the documented
    card values, percentages and sample counts, but whose score sample has
    no x sequence. *)
Lemma stated_invariants_fail :
  exists p s',
    @run Lcg.generator _ (dashboard 2024 "North America") 3 = (inr p, s') /\
    fiscal_year_values 2024 p /\
    sample_counts p /\
    ~ (lengths_agree p /\ fiscal_year_values 2024 p /\
       percentages_in_range p /\ sample_counts p).
Proof.
  assert (Hy : In 2024 fiscal_years) by (simpl; auto).
  run_pass Hy "North America" (3 : @Np.state Lcg.generator).
  eexists. eexists. split; [exact Hrun|].
  split; [exists (k1 2024), (k2 2024); repeat split|].
  split.
  { unfold sample_counts. cbn [ghg dist y fig_dist Px.box].
    rewrite !length_map, zip_add_length by (rewrite ramp_length; auto).
    split; [apply ramp_length | exact L2]. }
  intros [H _]. revert H. apply lengths_agree_needs_x. reflexivity.
Qed.

(* ===================================================================== *)
(** ** Years beyond the three options *)
(* ===================================================================== *)

Lemma start_reads_back_supported (y : Z) :
  supported_year y -> start_reads_back y = true.
Proof.
  intros [Hlo Hhi].
  assert (H : forallb start_reads_back
                      (map (fun k => 1678 + Z.of_nat k) (seq 0 584)) = true)
    by (vm_compute; reflexivity).
  rewrite forallb_forall in H. apply H.
  apply in_map_iff. exists (Z.to_nat (y - 1678)). split; [lia|].
  apply in_seq. lia.
Qed.

Lemma dates_supported (y : Z) :
  supported_year y -> dates y = inr (Pd.month_ends 12 y 1).
Proof.
  intros Hy. apply start_reads_back_supported in Hy.
  unfold start_reads_back in Hy. apply andb_prop in Hy as [_ Hy].
  unfold dates, Pd.date_range.
  destruct (Pd.parse_date (Fmt.str y ++ "-01-01")) as [e|[ty tm td]];
    [discriminate|].
  cbn [Pd.year Pd.month Pd.day] in *.
  apply andb_prop in Hy as [Hy Hd]. apply andb_prop in Hy as [Hy Hm].
  apply Z.eqb_eq in Hy, Hm, Hd. now subst.
Qed.

Lemma fiscal_years_supported (y : Z) : In y fiscal_years -> supported_year y.
Proof. unfold supported_year. intros [<-|[<-|[<-|[]]]]; lia. Qed.

(** Run one pass whose date range [Hd : dates y = inr ds] is known. *)
Ltac run_with Hd sc s :=
  let noise := fresh "noise" in
  let s1 := fresh "s1" in
  let sample := fresh "sample" in
  let s2 := fresh "s2" in
  let E1 := fresh "E1" in
  let E2 := fresh "E2" in
  let Hrun := fresh "Hrun" in
  destruct (Np.sample (Np.normal 0 100 12) s) as [noise s1] eqn:E1;
  destruct (Np.sample (Np.normal 72 10 200) s1) as [sample s2] eqn:E2;
  pose proof (run_dashboard _ sc _ _ _ _ _ _ _ _ Hd E1 E2 eq_refl eq_refl) as Hrun.

(** X1.  The pass does not depend on the select boxes offering only three
    years and four scopes: for any year from 1678 to 2261 and any scope
    text at all, from any generator state, it returns a page whose header
    carries that scope and year.  The first two cards read "54,000 tCO2e"
    and "120 kWh/Unit" for 2024, and "49,500 tCO2e" and "115 kWh/Unit" for
    every other year. *)
Theorem pass_total_beyond_options (G : Np.BitGenerator) (selected_year : Z)
        (selected_scope : string) (s : Np.state) :
  supported_year selected_year ->
  exists p s',
    run (dashboard selected_year selected_scope) s = (inr p, s') /\
    header p = header_text selected_scope selected_year /\
    map label (cards p) =
      ["Total GHG Emissions"; "Energy Intensity"; "Water Withdrawal";
       "ESRS Compliance"; "Supplier ESG Score"] /\
    map value (firstn 2 (cards p)) =
      (if selected_year =? 2024
       then ["54,000 tCO2e"; "120 kWh/Unit"]
       else ["49,500 tCO2e"; "115 kWh/Unit"]).
Proof.
  intros Hy. pose proof (dates_supported _ Hy) as Hd.
  run_with Hd selected_scope s.
  eexists. eexists. split; [exact Hrun|].
  split; [reflexivity|]. split; [reflexivity|].
  cbn [cards firstn map]. unfold k1, k2, val_ghg, val_energy.
  destruct (selected_year =? 2024); reflexivity.
Qed.

Lemma pass_total_beyond_options_witness :
  supported_year 1999 /\
  exists p s',
    @run Lcg.generator _ (dashboard 1999 "LATAM") 8 = (inr p, s') /\
    header p = header_text "LATAM" 1999 /\
    map label (cards p) =
      ["Total GHG Emissions"; "Energy Intensity"; "Water Withdrawal";
       "ESRS Compliance"; "Supplier ESG Score"] /\
    map value (firstn 2 (cards p)) =
      (if 1999 =? 2024
       then ["54,000 tCO2e"; "120 kWh/Unit"]
       else ["49,500 tCO2e"; "115 kWh/Unit"]).
Proof.
  split; [unfold supported_year; lia|].
  apply (pass_total_beyond_options Lcg.generator 1999 "LATAM" 8).
  unfold supported_year; lia.
Defined.

(** X2.  The x axis of the emissions trend follows the selected year: it
    is the twelve month ends of that year, January to December, each on
    the last day of its month, with the 29th of February in leap years and
    the 28th otherwise. *)
Theorem trend_dates_follow_year (G : Np.BitGenerator) (selected_year : Z)
        (selected_scope : string) (s : Np.state) :
  supported_year selected_year ->
  exists p s' ds,
    run (dashboard selected_year selected_scope) s = (inr p, s') /\
    x (ghg p) = Some (map Date ds) /\
    map Pd.year ds = repeat selected_year 12 /\
    map Pd.month ds = [1; 2; 3; 4; 5; 6; 7; 8; 9; 10; 11; 12] /\
    map Pd.day ds =
      [31; if Pd.is_leap selected_year then 29 else 28;
       31; 30; 31; 30; 31; 31; 30; 31; 30; 31].
Proof.
  intros Hy. pose proof (dates_supported _ Hy) as Hd.
  run_with Hd selected_scope s.
  eexists. eexists. exists (Pd.month_ends 12 selected_year 1).
  split; [exact Hrun|]. repeat split.
Qed.

Lemma trend_dates_follow_year_witness :
  supported_year 2024 /\
  exists p s' ds,
    @run Lcg.generator _ (dashboard 2024 "EMEA") 2 = (inr p, s') /\
    x (ghg p) = Some (map Date ds) /\
    map Pd.year ds = repeat 2024 12 /\
    map Pd.month ds = [1; 2; 3; 4; 5; 6; 7; 8; 9; 10; 11; 12] /\
    map Pd.day ds =
      [31; if Pd.is_leap 2024 then 29 else 28;
       31; 30; 31; 30; 31; 31; 30; 31; 30; 31].
Proof.
  split; [unfold supported_year; lia|].
  apply (trend_dates_follow_year Lcg.generator 2024 "EMEA" 2).
  unfold supported_year; lia.
Defined.

(** X3.  What a change of year leaves alone.  For two years from 1678 to
    2261, the same scope and the same generator state, the two pages have
    the same trend values, the same bar, box, pie, gauge, incident and
    Sankey data, the same last three cards, and the generator ends in the
    same state; the pages can differ only in the header, the first two
    cards and the dates of the trend.  When both years are 2024 or neither
    is, the five cards are the same as well. *)
Theorem year_frame (G : Np.BitGenerator) (year1 year2 : Z)
        (selected_scope : string) (s : Np.state) :
  supported_year year1 ->
  supported_year year2 ->
  exists p1 p2 s',
    run (dashboard year1 selected_scope) s = (inr p1, s') /\
    run (dashboard year2 selected_scope) s = (inr p2, s') /\
    y (ghg p1) = y (ghg p2) /\
    name (ghg p1) = name (ghg p2) /\
    (energy p1, water p1, dist p1, minerals p1, gauge p1, inc p1, sankey p1) =
    (energy p2, water p2, dist p2, minerals p2, gauge p2, inc p2, sankey p2) /\
    skipn 2 (cards p1) = skipn 2 (cards p2) /\
    ((year1 =? 2024) = (year2 =? 2024) -> cards p1 = cards p2).
Proof.
  intros H1 H2.
  pose proof (dates_supported _ H1) as D1. pose proof (dates_supported _ H2) as D2.
  destruct (Np.sample (Np.normal 0 100 12) s) as [noise s1] eqn:E1.
  destruct (Np.sample (Np.normal 72 10 200) s1) as [sample s2] eqn:E2.
  pose proof (run_dashboard _ selected_scope _ _ _ _ _ _ _ _
                            D1 E1 E2 eq_refl eq_refl) as R1.
  pose proof (run_dashboard _ selected_scope _ _ _ _ _ _ _ _
                            D2 E1 E2 eq_refl eq_refl) as R2.
  do 3 eexists. split; [exact R1|]. split; [exact R2|].
  repeat (split; [reflexivity|]).
  cbn [cards]. unfold k1, k2, val_ghg, val_energy. intros ->. reflexivity.
Qed.

Lemma year_frame_witness :
  supported_year 2025 /\ supported_year 2023 /\
  exists p1 p2 s',
    @run Lcg.generator _ (dashboard 2025 "APAC") 4 = (inr p1, s') /\
    @run Lcg.generator _ (dashboard 2023 "APAC") 4 = (inr p2, s') /\
    y (ghg p1) = y (ghg p2) /\
    name (ghg p1) = name (ghg p2) /\
    (energy p1, water p1, dist p1, minerals p1, gauge p1, inc p1, sankey p1) =
    (energy p2, water p2, dist p2, minerals p2, gauge p2, inc p2, sankey p2) /\
    skipn 2 (cards p1) = skipn 2 (cards p2) /\
    ((2025 =? 2024) = (2023 =? 2024) -> cards p1 = cards p2).
Proof.
  split; [unfold supported_year; lia|]. split; [unfold supported_year; lia|].
  apply (year_frame Lcg.generator 2025 2023 "APAC" 4); unfold supported_year; lia.
Defined.

(* ===================================================================== *)
(** ** The header *)
(* ===================================================================== *)

Lemma append_length (a b : string) :
  String.length (a ++ b) = (String.length a + String.length b)%nat.
Proof. induction a as [|c a IH]; simpl; [reflexivity | now rewrite IH]. Qed.

Lemma append_cancel_prefix (p a b : string) : p ++ a = p ++ b -> a = b.
Proof.
  induction p as [|c p IH]; simpl; intros H; [exact H|].
  injection H as H. now apply IH.
Qed.

(** Two texts split before tails of the same length split the same way. *)
Lemma append_split_same_tail_length (a : string) : forall b t1 t2,
  a ++ t1 = b ++ t2 -> String.length t1 = String.length t2 ->
  a = b /\ t1 = t2.
Proof.
  induction a as [|c a IH]; intros [|d b] t1 t2 H L; simpl in H.
  - auto.
  - exfalso. subst t1. simpl in L. rewrite append_length in L. lia.
  - exfalso. subst t2. simpl in L. rewrite append_length in L. lia.
  - injection H as -> H. destruct (IH _ _ _ H L) as [-> ->]. auto.
Qed.

Lemma str_supported_length (y : Z) :
  supported_year y -> String.length (Fmt.str y) = 4%nat.
Proof.
  intros Hy. apply start_reads_back_supported in Hy.
  unfold start_reads_back in Hy. apply andb_prop in Hy as [Hy _].
  now apply Nat.eqb_eq.
Qed.

Lemma str_supported_inj (y1 y2 : Z) :
  supported_year y1 -> supported_year y2 -> Fmt.str y1 = Fmt.str y2 -> y1 = y2.
Proof.
  intros H1 H2 E.
  apply start_reads_back_supported in H1, H2.
  unfold start_reads_back in H1, H2. rewrite E in H1.
  apply andb_prop in H1 as [_ H1]. apply andb_prop in H2 as [_ H2].
  destruct (Pd.parse_date (Fmt.str y2 ++ "-01-01")) as [e|t]; [discriminate|].
  apply andb_prop in H1 as [H1 _]. apply andb_prop in H1 as [H1 _].
  apply andb_prop in H2 as [H2 _]. apply andb_prop in H2 as [H2 _].
  apply Z.eqb_eq in H1, H2. congruence.
Qed.

(** X4.  The header tells the selection: for any two scope texts and any
    two years from 1678 to 2261, equal header lines come from the same
    scope and the same year.  This holds for every scope text, also one
    that contains the header's own separators. *)
Theorem header_determines_selection (scope1 scope2 : string) (year1 year2 : Z) :
  supported_year year1 ->
  supported_year year2 ->
  header_text scope1 year1 = header_text scope2 year2 ->
  scope1 = scope2 /\ year1 = year2.
Proof.
  intros H1 H2 E. unfold header_text in E.
  apply append_cancel_prefix in E.
  apply append_split_same_tail_length in E.
  - destruct E as [-> E]. split; [reflexivity|].
    apply append_cancel_prefix in E.
    apply append_split_same_tail_length in E; [|reflexivity].
    destruct E as [E _]. now apply str_supported_inj.
  - rewrite !append_length, !(str_supported_length _ H1), !(str_supported_length _ H2).
    reflexivity.
Qed.

Lemma header_determines_selection_witness :
  supported_year 2024 /\ supported_year 2024 /\
  header_text "EMEA" 2024 = header_text "EMEA" 2024 /\
  "EMEA" = "EMEA" /\ 2024 = 2024.
Proof.
  split; [unfold supported_year; lia|]. split; [unfold supported_year; lia|].
  split; [reflexivity|].
  apply (header_determines_selection "EMEA" "EMEA" 2024 2024);
    [unfold supported_year; lia | unfold supported_year; lia | reflexivity].
Defined.

(* ===================================================================== *)
(** ** The draws of a pass *)
(* ===================================================================== *)

Lemma map_seq_offset {A : Type} (f : nat -> A) (n : nat) : forall a,
  map (fun k => f (a + k)%nat) (seq 0 n) = map f (seq a n).
Proof.
  induction n as [|n IH]; intros a; [reflexivity|].
  cbn [seq map]. rewrite Nat.add_0_r. f_equal.
  rewrite <- seq_shift, map_map, <- (IH (S a)).
  apply map_ext. intros k. now rewrite Nat.add_succ_r.
Qed.

Section Draws.
Context {G : Np.BitGenerator}.

Lemma advance_add (a b : nat) : forall s,
  advance (a + b) s = advance b (advance a s).
Proof. induction a as [|a IH]; intros s; simpl; [reflexivity | apply IH]. Qed.

Lemma gauss_at_advance (a k : nat) (s : Np.state) :
  gauss_at k (advance a s) = gauss_at (a + k) s.
Proof. unfold gauss_at. now rewrite advance_add. Qed.

Lemma draws_stream (f : Q -> Q) (n : nat) : forall s,
  Np.draws Np.next_gauss f n s =
  (map (fun k => f (gauss_at k s)) (seq 0 n), advance n s).
Proof.
  induction n as [|n IH]; intros s; [reflexivity|].
  cbn [Np.draws]. destruct (Np.next_gauss s) as [z s1] eqn:E.
  rewrite IH. cbn [seq map advance]. rewrite E. cbn [snd].
  f_equal. f_equal.
  - unfold gauss_at. cbn [advance]. now rewrite E.
  - rewrite <- seq_shift, map_map. apply map_ext. intros k.
    unfold gauss_at. cbn [advance]. now rewrite E.
Qed.

Lemma normal_stream (loc scale : Q) (n : nat) (s : Np.state) :
  Np.sample (Np.normal loc scale n) s =
  (map (fun k => loc + scale * gauss_at k s)%Q (seq 0 n), advance n s).
Proof. apply draws_stream. Qed.

(** A pass from state [s], in terms of the stream of normal draws. *)
Lemma run_dashboard_stream (selected_year : Z) (selected_scope : string)
      (s : Np.state) (ds : list Pd.Timestamp) :
  dates selected_year = inr ds ->
  run (dashboard selected_year selected_scope) s =
  (inr (mkPage (header_text selected_scope selected_year)
               [k1 selected_year; k2 selected_year; k3; k4; k5]
               (mkSeries Area "<b>GHG Emissions Trend</b>"
                  (Some (map Date ds))
                  (map Float
                     (Np.zip_add ramp
                        (map (fun k => 0 + 100 * gauss_at k s)%Q (seq 0 12)))))
               (mkSeries Bar "<b>Energy Consumption by Facility</b>"
                  (Some [Category "Facility A"; Category "Facility B";
                         Category "Facility C"])
                  [Int 220; Int 180; Int 110])
               (mkSeries Bar "<b>Water Withdrawal by Region</b>"
                  (Some [Category "Region X"; Category "Region Y";
                         Category "Region Z"])
                  [Int 50; Int 40; Int 25])
               (fig_dist (map (fun k => 72 + 10 * gauss_at k s)%Q (seq 12 200)))
               fig_minerals fig_gauge fig_inc fig_sankey),
   advance 212 s).
Proof.
  intros Hd.
  rewrite (run_dashboard selected_year selected_scope s _ _ ds _ _ _ _ Hd
             (normal_stream 0 100 12 s)
             (normal_stream 72 10 200 (advance 12 s)) eq_refl eq_refl).
  assert (E : map (fun k => 72 + 10 * gauss_at k (advance 12 s))%Q (seq 0 200) =
              map (fun k => 72 + 10 * gauss_at k s)%Q (seq 12 200)).
  { rewrite <- (map_seq_offset (fun k => 72 + 10 * gauss_at k s)%Q 200 12).
    apply map_ext. intros k. now rewrite gauss_at_advance. }
  rewrite E, <- (advance_add 12 200 s). reflexivity.
Qed.

End Draws.

(** X5.  A pass takes exactly 212 normal draws from the generator, in
    order: draws 0 to 11 become the trend noise (scaled by 100 and added to
    the ramp point by point), draws 12 to 211 become the score sample
    (72 plus 10 times the draw), and the generator is left 212 draws
    further on.  Neither the year nor the scope changes this. *)
Theorem pass_takes_212_draws (G : Np.BitGenerator) (selected_year : Z)
        (selected_scope : string) (s : Np.state) :
  supported_year selected_year ->
  exists p,
    run (dashboard selected_year selected_scope) s = (inr p, advance 212 s) /\
    y (ghg p) =
      map Float (Np.zip_add ramp
                   (map (fun k => 0 + 100 * gauss_at k s)%Q (seq 0 12))) /\
    y (dist p) =
      map Float (map (fun k => 72 + 10 * gauss_at k s)%Q (seq 12 200)).
Proof.
  intros Hy. eexists.
  split; [exact (run_dashboard_stream _ _ _ _ (dates_supported _ Hy))|].
  split; reflexivity.
Qed.

Lemma pass_takes_212_draws_witness :
  supported_year 2025 /\
  exists p,
    @run Lcg.generator _ (dashboard 2025 "Global") 1 =
      (inr p, @advance Lcg.generator 212 1) /\
    y (ghg p) =
      map Float (Np.zip_add ramp
                   (map (fun k => 0 + 100 * @gauss_at Lcg.generator k 1%Z)%Q
                        (seq 0 12))) /\
    y (dist p) =
      map Float (map (fun k => 72 + 10 * @gauss_at Lcg.generator k 1%Z)%Q
                     (seq 12 200)).
Proof.
  split; [unfold supported_year; lia|].
  apply (pass_takes_212_draws Lcg.generator 2025 "Global" 1).
  unfold supported_year; lia.
Defined.

(** X6.  The pass never draws from the uniform sampler: two generators
    with the same states and the same normal draw, whatever their uniform
    draws, give the same result (page or exception) and the same final
    state, for every year and scope. *)
Theorem uniform_sampler_unused (S : Type) (gauss double1 double2 : S -> Q * S)
        (selected_year : Z) (selected_scope : string) (s : S) :
  @run (Np.Build_BitGenerator S gauss double1) _
       (dashboard selected_year selected_scope) s =
  @run (Np.Build_BitGenerator S gauss double2) _
       (dashboard selected_year selected_scope) s.
Proof.
  destruct (dates selected_year) as [e|ds] eqn:Ed.
  - rewrite (@run_dashboard_raise (Np.Build_BitGenerator S gauss double1) _ _ _ _ Ed).
    rewrite (@run_dashboard_raise (Np.Build_BitGenerator S gauss double2) _ _ _ _ Ed).
    reflexivity.
  - rewrite (@run_dashboard_stream (Np.Build_BitGenerator S gauss double1) _ _ _ _ Ed).
    rewrite (@run_dashboard_stream (Np.Build_BitGenerator S gauss double2) _ _ _ _ Ed).
    reflexivity.
Qed.

(** X7.  Two renders in a row on one generator: the second starts where
    the first stopped.  The first page is the page of a single pass; the
    second page takes draws 212 to 223 for its trend and draws 224 to 423
    for its score sample, and the generator ends 424 draws on. *)
Theorem rerun_continues_the_stream (G : Np.BitGenerator) (year1 year2 : Z)
        (scope1 scope2 : string) (s : Np.state) :
  supported_year year1 ->
  supported_year year2 ->
  exists p1 p2,
    run (rerun year1 scope1 year2 scope2) s = (inr (p1, p2), advance 424 s) /\
    run (dashboard year1 scope1) s = (inr p1, advance 212 s) /\
    y (ghg p2) =
      map Float (Np.zip_add ramp
                   (map (fun k => 0 + 100 * gauss_at k s)%Q (seq 212 12))) /\
    y (dist p2) =
      map Float (map (fun k => 72 + 10 * gauss_at k s)%Q (seq 224 200)).
Proof.
  intros H1 H2.
  pose proof (run_dashboard_stream year1 scope1 s _ (dates_supported _ H1)) as R1.
  pose proof (run_dashboard_stream year2 scope2 (advance 212 s) _
                                   (dates_supported _ H2)) as R2.
  do 2 eexists. split; [|split; [exact R1|]].
  - unfold rerun. rewrite run_bind, R1, run_bind, R2.
    rewrite <- (advance_add 212 212 s). reflexivity.
  - cbn [ghg dist y fig_dist Px.box]. split.
    + apply (f_equal (map Float)), (f_equal (Np.zip_add ramp)).
      rewrite <- (map_seq_offset (fun k => 0 + 100 * gauss_at k s)%Q 12 212).
      apply map_ext. intros k. now rewrite gauss_at_advance.
    + apply (f_equal (map Float)).
      rewrite <- (map_seq_offset (fun k => 72 + 10 * gauss_at k s)%Q 200 224).
      rewrite <- (map_seq_offset
                    (fun k => 72 + 10 * gauss_at k (advance 212 s))%Q 200 12).
      apply map_ext. intros k. rewrite gauss_at_advance.
      now replace (212 + (12 + k))%nat with (224 + k)%nat by lia.
Qed.

Lemma rerun_continues_the_stream_witness :
  supported_year 2025 /\ supported_year 2024 /\
  exists p1 p2,
    @run Lcg.generator _ (rerun 2025 "Global" 2024 "Global") 1 =
      (inr (p1, p2), @advance Lcg.generator 424 1) /\
    @run Lcg.generator _ (dashboard 2025 "Global") 1 =
      (inr p1, @advance Lcg.generator 212 1) /\
    y (ghg p2) =
      map Float (Np.zip_add ramp
                   (map (fun k => 0 + 100 * @gauss_at Lcg.generator k 1%Z)%Q
                        (seq 212 12))) /\
    y (dist p2) =
      map Float (map (fun k => 72 + 10 * @gauss_at Lcg.generator k 1%Z)%Q
                     (seq 224 200)).
Proof.
  split; [unfold supported_year; lia|]. split; [unfold supported_year; lia|].
  apply (rerun_continues_the_stream Lcg.generator 2025 2024 "Global" "Global" 1);
    unfold supported_year; lia.
Defined.

(* ===================================================================== *)
(** ** How far the sampled values can go *)
(* ===================================================================== *)










